(** * streamlit-demo: the text extraction routine of [app.py]

    The script uploads a file through a Streamlit widget, hands it to
    python-docx's [Document], collects the text of every paragraph and shows
    the newline-joined result; an ordinary exception is turned into its
    message.  The development embeds [read_pdf] and the script around it as
    Rocq functions.  python-docx and Streamlit are external libraries: the
    parser is a parameter of the model, and the uploaded file is a byte
    buffer with a read position, as [io.BytesIO] is.  Where a property
    turns on what python-docx does with the file object, its entry point
    [docx.Document] is modelled as the library writes it, over a package
    reader that stays a parameter. *)

From Stdlib Require Import Strings.String Strings.Ascii Strings.Byte Lists.List Bool.Bool Arith.Arith micromega.Lia.
Import ListNotations.
Local Open Scope string_scope.
Local Open Scope list_scope.

(** * Python values *)

Module Py.

(** The exception classes that matter for [except Exception]: the root
    [BaseException], its direct children that are not ordinary exceptions,
    [Exception] with some of its descendants, and classes defined elsewhere
    by naming a base class. *)
Inductive exc_class : Type :=
| BaseException
| SystemExit
| KeyboardInterrupt
| GeneratorExit
| Exception
| MemoryError
| ValueError
| KeyError
| OSError
| BadZipFile
| PackageNotFoundError
| Subclass (name : string) (base : exc_class).

(** [issubclass(c, Exception)]. *)
Fixpoint issubclass_Exception (c : exc_class) : bool :=
  match c with
  | BaseException | SystemExit | KeyboardInterrupt | GeneratorExit => false
  | Exception | MemoryError | ValueError | KeyError | OSError
  | BadZipFile | PackageNotFoundError => true
  | Subclass _ base => issubclass_Exception base
  end.

(** A raised exception object: its class and what [str(e)] gives. *)
Record exn : Type := mkExn { exc_type : exc_class; str : string }.

Definition isinstance_Exception (e : exn) : bool :=
  issubclass_Exception (exc_type e).

(** A Python call either returns a value or raises. *)
Inductive outcome (A : Type) : Type :=
| Returns (a : A)
| Raises (e : exn).
Arguments Returns {A} a.
Arguments Raises {A} e.

Definition bind {A B : Type} (m : outcome A) (k : A -> outcome B) : outcome B :=
  match m with
  | Returns a => k a
  | Raises e => Raises e
  end.

(** [try: body  except Exception as e: handler(e)]: an exception that is
    not an instance of [Exception] passes through the handler untouched. *)
Definition try_except_Exception {A : Type}
    (body : outcome A) (handler : exn -> outcome A) : outcome A :=
  match body with
  | Returns a => Returns a
  | Raises e => if isinstance_Exception e then handler e else Raises e
  end.

(** [sep.join(l)]. *)
Fixpoint join (sep : string) (l : list string) : string :=
  match l with
  | [] => ""
  | [x] => x
  | x :: rest => x ++ sep ++ join sep rest
  end.

(** [l.append(x)], on the value of the list. *)
Definition append {A : Type} (l : list A) (x : A) : list A := l ++ [x].

(** The line feed character and the one-character string ['\n']. *)
Definition LF : ascii := ascii_of_nat 10.
Definition newline : string := String LF "".

(** [s.split('\n')]: the newline-separated segments of [s]; the empty
    string has the single segment [""]. *)
Fixpoint split_newline (s : string) : list string :=
  match s with
  | EmptyString => [""]
  | String c rest =>
      if Ascii.eqb c LF then "" :: split_newline rest
      else match split_newline rest with
           | [] => [String c ""]
           | seg :: segs => String c seg :: segs
           end
  end.

(** ['\n' in s]. *)
Fixpoint contains_newline (s : string) : bool :=
  match s with
  | EmptyString => false
  | String c rest => Ascii.eqb c LF || contains_newline rest
  end.

End Py.
Import Py.

Declare Scope py_scope.
Notation "x <- m ;; k" := (bind m (fun x => k))
  (at level 61, m at next level, right associativity) : py_scope.
Local Open Scope py_scope.

(** * The objects [read_pdf] works on *)

(** What python-docx hands back: a document is used through [doc.paragraphs]
    and a paragraph through [paragraph.text] only. *)
Record Paragraph : Type := mkParagraph { text : string }.
Record DocumentObject : Type := mkDocument { paragraphs : list Paragraph }.

(** Streamlit's [UploadedFile], an [io.BytesIO] with the upload's identity:
    [getvalue] is the whole buffer and [tell] the read position. *)
Record UploadedFile : Type := mkUploadedFile {
  file_id : string;
  name : string;
  type_ : string;
  getvalue : list byte;
  tell : nat
}.

(** [io.BytesIO(data)] wrapped as an upload: a fresh stream at position 0. *)
Definition upload (id nm mime : string) (data : list byte) : UploadedFile :=
  mkUploadedFile id nm mime data 0.

(** [f.seek(pos)]. *)
Definition seek (pos : nat) (f : UploadedFile) : UploadedFile :=
  mkUploadedFile (file_id f) (name f) (type_ f) (getvalue f) pos.

(** The same upload under another file name. *)
Definition rename (nm : string) (f : UploadedFile) : UploadedFile :=
  mkUploadedFile (file_id f) nm (type_ f) (getvalue f) (tell f).

(** The external parser [docx.Document]: called on the stream, it returns a
    document or raises, and leaves the stream in some state. *)
Definition parser : Type := UploadedFile -> outcome DocumentObject * UploadedFile.

(** What the page shows: the console line and the text area. *)
Inductive ui_event : Type :=
| Printed (s : string)
| TextArea (value : string).

(** * The script *)

(** The loop [for paragraph in doc.paragraphs: full_text.append(paragraph.text)]
    started from [full_text = []]. *)
Definition collect_text (ps : list Paragraph) : list string :=
  fold_left (fun full_text paragraph => append full_text (text paragraph)) ps [].

Section App.

Variable Document : parser.

(** [read_pdf(file)]: the value returned or the exception raised, and the
    stream as the call leaves it. *)
Definition read_pdf (file : UploadedFile) : outcome string * UploadedFile :=
  let (opened, file') := Document file in
  (try_except_Exception
     (doc <- opened ;;
      let full_text := collect_text (paragraphs doc) in
      Returns (join newline full_text))
     (fun e => Returns (str e)),
   file').

(** The body of the script below the uploader, for the file the widget
    returned ([None] when nothing is uploaded). *)
Definition script (uploaded_file : option UploadedFile) : outcome (list ui_event) :=
  match uploaded_file with
  | None => Returns []
  | Some file =>
      pdf_text <- fst (read_pdf file) ;;
      Returns [Printed pdf_text; TextArea pdf_text]
  end.

End App.

(** * python-docx's entry point

    [docx.Document(docx)], from the library's [docx/api.py]; it is not part
    of the repository:

      document_part = Package.open(docx).main_document_part
      if document_part.content_type != CT.WML_DOCUMENT_MAIN:
          tmpl = "file '%s' is not a Word file, content type is '%s'"
          raise ValueError(tmpl % (docx, document_part.content_type))
      return document_part.document

    The package reader ([Package.open(docx).main_document_part]: zipfile,
    the OPC relationships, lxml) and [str(docx)] stay parameters. *)

Module Docx.

(** The main part of an opened package, used through [content_type] and
    [document]. *)
Record DocumentPart : Type := mkDocumentPart {
  content_type : string;
  document : DocumentObject
}.

(** [CT.WML_DOCUMENT_MAIN]. *)
Definition WML_DOCUMENT_MAIN : string :=
  "application/vnd.openxmlformats-officedocument.wordprocessingml.document.main+xml".

(** [Package.open(docx).main_document_part]: the part or an exception, and
    the stream as the reader leaves it. *)
Definition package_reader : Type :=
  UploadedFile -> outcome DocumentPart * UploadedFile.

(** [tmpl % (docx, content_type)], given [str(docx)]. *)
Definition not_a_Word_file (docx_str ct : string) : string :=
  "file '" ++ docx_str ++ "' is not a Word file, content type is '" ++ ct ++ "'".

Section Api.

Variable main_document_part : package_reader.
Variable str_file : UploadedFile -> string.

Definition Document : parser :=
  fun docx =>
    let (opened, docx') := main_document_part docx in
    (document_part <- opened ;;
     if negb (String.eqb (content_type document_part) WML_DOCUMENT_MAIN)
     then Raises (mkExn ValueError
                    (not_a_Word_file (str_file docx') (content_type document_part)))
     else Returns (document document_part),
     docx').

End Api.

(** The reader addresses the buffer absolutely, as [zipfile] does from the
    end-of-archive record: its outcome depends on the bytes alone. *)
Definition addresses_buffer (reader : package_reader) : Prop :=
  forall f1 f2 : UploadedFile,
    getvalue f1 = getvalue f2 -> fst (reader f1) = fst (reader f2).

(** The reader only reads: all it changes on the file object is the
    position. *)
Definition only_moves_position (reader : package_reader) : Prop :=
  forall f : UploadedFile, exists pos, snd (reader f) = seek pos f.

(** [str(docx)] does not depend on the read position. *)
Definition ignores_position (str_file : UploadedFile -> string) : Prop :=
  forall (pos : nat) (f : UploadedFile), str_file (seek pos f) = str_file f.

(** Every failure of the reader is an instance of [Exception]. *)
Definition reader_raises_only_Exception (reader : package_reader) : Prop :=
  forall f e, fst (reader f) = Raises e -> isinstance_Exception e = true.

(** Every failure of the reader comes with a description. *)
Definition reader_describes_failures (reader : package_reader) : Prop :=
  forall f e, fst (reader f) = Raises e -> str e <> "".

End Docx.

(** Every failure of the parse is an instance of [Exception]. *)
Definition raises_only_Exception (Document : parser) : Prop :=
  forall f e, fst (Document f) = Raises e -> isinstance_Exception e = true.

(** * Stand-ins for the external parser

    Small parsers of a made-up container format, used to run the script on
    concrete streams.  They are not python-docx; they only show the kinds
    of behaviour a parser can have towards [read_pdf]. *)

Module Stub.

(** A parser that addresses the buffer absolutely, the way [zipfile] does:
    it decodes the whole buffer whatever the position and leaves the
    position at the end. *)
Definition whole_buffer (decode : list byte -> outcome DocumentObject) : parser :=
  fun f => (decode (getvalue f), seek (List.length (getvalue f)) f).

(** The paragraphs of a body: each one is its text followed by a zero byte. *)
Fixpoint records (cur : string) (bs : list byte) : option (list Paragraph) :=
  match bs with
  | [] => match cur with
          | EmptyString => Some []
          | String _ _ => None
          end
  | b :: rest =>
      if Byte.eqb b x00
      then option_map (cons (mkParagraph cur)) (records "" rest)
      else records (cur ++ String (ascii_of_byte b) "") rest
  end.

(** The container: the two bytes [PK], then the paragraphs. *)
Definition decode (bs : list byte) : outcome DocumentObject :=
  match bs with
  | x50 :: x4b :: body =>
      match records "" body with
      | Some ps => Returns (mkDocument ps)
      | None => Raises (mkExn ValueError "unterminated paragraph")
      end
  | _ => Raises (mkExn BadZipFile "File is not a zip file")
  end.

(** The same under a memory budget: a buffer over the limit ends in a bare
    [MemoryError()], whose [str] is empty. *)
Definition decode_within (limit : nat) (bs : list byte) : outcome DocumentObject :=
  if Nat.ltb limit (List.length bs) then Raises (mkExn MemoryError "") else decode bs.

(** A parse interrupted from the keyboard. *)
Definition interrupted : parser :=
  fun f => (Raises (mkExn KeyboardInterrupt ""), f).

Definition PK : list byte := [x50; x4b].

(** A paragraph as the container stores it. *)
Definition record (s : string) : list byte := list_byte_of_string s ++ [x00].

Definition hello_bytes : list byte := PK ++ record "Hello" ++ record "" ++ record "World".
Definition empty_bytes : list byte := PK.
Definition one_empty_paragraph_bytes : list byte := PK ++ record "".
Definition soft_break_bytes : list byte := PK ++ record ("a" ++ newline ++ "b").
Definition plain_text_bytes : list byte := list_byte_of_string "just some notes".

Definition docx_mime : string :=
  "application/vnd.openxmlformats-officedocument.wordprocessingml.document".
Definition pdf_mime : string := "application/pdf".

(** A package of the container: the first record is the content type of
    the main part, the others are its paragraphs. *)
Definition read_part (bs : list byte) : outcome Docx.DocumentPart :=
  match bs with
  | b1 :: b2 :: body =>
      if Byte.eqb b1 x50 && Byte.eqb b2 x4b
      then match records "" body with
           | Some (ct :: ps) =>
               Returns (Docx.mkDocumentPart (text ct) (mkDocument ps))
           | Some [] => Raises (mkExn KeyError "'no main part'")
           | None => Raises (mkExn ValueError "unterminated paragraph")
           end
      else Raises (mkExn BadZipFile "File is not a zip file")
  | _ => Raises (mkExn BadZipFile "File is not a zip file")
  end.

(** A package reader that looks at the whole buffer and leaves the position
    at the end. *)
Definition main_document_part : Docx.package_reader :=
  fun f => (read_part (getvalue f), seek (List.length (getvalue f)) f).

(** A description of the file object that names the upload, as the [repr]
    of Streamlit's [UploadedFile] does. *)
Definition str_file (f : UploadedFile) : string :=
  "UploadedFile(file_id='" ++ file_id f ++ "', name='" ++ name f
  ++ "', type='" ++ type_ f ++ "')".

Definition SML_SHEET_MAIN : string :=
  "application/vnd.openxmlformats-officedocument.spreadsheetml.sheet.main+xml".

(** A Word package and a spreadsheet package. *)
Definition word_bytes : list byte :=
  PK ++ record Docx.WML_DOCUMENT_MAIN ++ record "Hello" ++ record "" ++ record "World".
Definition sheet_bytes : list byte :=
  PK ++ record SML_SHEET_MAIN ++ record "A1".

End Stub.

(** * Sizes and repeated calls *)

(** The characters of all the texts together. *)
Definition text_length (l : list string) : nat :=
  fold_right (fun s n => String.length s + n) 0 l.

Section Reruns.

Variable Document : parser.

(** The file object after [n] calls of [read_pdf] in a row. *)
Definition after_calls (n : nat) (f : UploadedFile) : UploadedFile :=
  Nat.iter n (fun g => snd (read_pdf Document g)) f.

(** The parser's outcome depends on the buffer alone, not on the position:
    it addresses the stream absolutely. *)
Definition reads_buffer_only : Prop :=
  forall f1 f2 : UploadedFile,
    getvalue f1 = getvalue f2 -> fst (Document f1) = fst (Document f2).

(** The parser does not write to the stream. *)
Definition keeps_buffer : Prop :=
  forall f : UploadedFile, getvalue (snd (Document f)) = getvalue f.

End Reruns.

(** * The properties as the specification words them

    Two sentences of the specification are stated here as they are
    written, to be compared with what [read_pdf] does. *)

Section Worded.

Variable Document : parser.

(** Order preservation, as worded: the newline-separated segments of the
    result are the paragraph texts, one for one. *)
Definition one_segment_per_paragraph (f : UploadedFile) : Prop :=
  forall d, fst (Document f) = Returns d ->
  exists s, fst (read_pdf Document f) = Returns s /\
            split_newline s = map text (paragraphs d).

(** The result invariant, as worded: a string comes back, and it is the
    joined text or the description of the failure. *)
Definition always_a_string (f : UploadedFile) : Prop :=
  exists s, fst (read_pdf Document f) = Returns s /\
    ((exists d, fst (Document f) = Returns d /\
                s = join newline (map text (paragraphs d))) \/
     (exists e, fst (Document f) = Raises e /\ s = str e)).

End Worded.

(** * Python's [join] and [split] *)

Lemma join_cons (sep x y : string) (l : list string) :
  join sep (x :: y :: l) = (x ++ sep ++ join sep (y :: l))%string.
Proof. reflexivity. Qed.

Lemma join_is_concat (sep : string) (l : list string) :
  join sep l = String.concat sep l.
Proof. reflexivity. Qed.

Lemma append_empty_r (s : string) : (s ++ "")%string = s.
Proof. induction s as [|c s IH]; simpl; [reflexivity | now rewrite IH]. Qed.

Lemma split_newline_not_nil (s : string) : split_newline s <> [].
Proof.
  induction s as [|c s IH]; simpl; [discriminate|].
  destruct (Ascii.eqb c LF); [discriminate|].
  destruct (split_newline s); discriminate.
Qed.

(** A prefix without line feed stays in the first segment. *)
Lemma split_newline_app (x s : string) :
  contains_newline x = false ->
  split_newline (x ++ s) =
  match split_newline s with
  | [] => [x]
  | seg :: segs => (x ++ seg)%string :: segs
  end.
Proof.
  induction x as [|c x IH]; simpl; intros Hx.
  - destruct (split_newline s) eqn:E; [|reflexivity].
    exfalso. now apply (split_newline_not_nil s).
  - apply orb_false_elim in Hx. destruct Hx as [Hc Hx].
    rewrite Hc, (IH Hx).
    destruct (split_newline s); reflexivity.
Qed.

Lemma split_newline_line (x : string) :
  contains_newline x = false -> split_newline x = [x].
Proof.
  intros Hx. rewrite <- (append_empty_r x) at 1.
  rewrite (split_newline_app x "" Hx). simpl.
  now rewrite append_empty_r.
Qed.

(** Splitting undoes joining when there is at least one line and no line
    holds a line feed of its own. *)
Lemma split_newline_join (l : list string) :
  l <> [] ->
  forallb (fun s => negb (contains_newline s)) l = true ->
  split_newline (join newline l) = l.
Proof.
  induction l as [|x [|y l] IH]; intros Hne Hall.
  - contradiction.
  - simpl in Hall. rewrite andb_true_r in Hall.
    apply negb_true_iff in Hall. now apply split_newline_line.
  - change (forallb (fun s => negb (contains_newline s)) (x :: y :: l))
      with (negb (contains_newline x) &&
            forallb (fun s => negb (contains_newline s)) (y :: l)) in Hall.
    apply andb_true_iff in Hall. destruct Hall as [Hx Hrest].
    apply negb_true_iff in Hx.
    rewrite join_cons, (split_newline_app _ _ Hx).
    change (split_newline (newline ++ join newline (y :: l))%string)
      with ("" :: split_newline (join newline (y :: l))).
    rewrite IH by (discriminate || assumption).
    now rewrite append_empty_r.
Qed.

(** * The loop and the two exits of [read_pdf] *)

Lemma collect_text_from (ps : list Paragraph) (acc : list string) :
  fold_left (fun full_text paragraph => append full_text (text paragraph)) ps acc
  = acc ++ map text ps.
Proof.
  revert acc. induction ps as [|p ps IH]; intros acc; simpl.
  - now rewrite app_nil_r.
  - rewrite IH. unfold append. now rewrite <- app_assoc.
Qed.

Lemma collect_text_map (ps : list Paragraph) : collect_text ps = map text ps.
Proof. unfold collect_text. now rewrite collect_text_from. Qed.

Section Exits.

Variable Document : parser.

(** The result of [read_pdf] is the handler applied to the parser's outcome;
    nothing else of the file is looked at. *)
Lemma read_pdf_fst (f : UploadedFile) :
  fst (read_pdf Document f) =
  try_except_Exception
    (doc <- fst (Document f) ;;
     Returns (join newline (map text (paragraphs doc))))
    (fun e => Returns (str e)).
Proof.
  unfold read_pdf. destruct (Document f) as [opened f']. simpl.
  destruct opened as [doc|e]; simpl; [|reflexivity].
  now rewrite collect_text_map.
Qed.

(** [read_pdf] leaves the stream as the parser left it. *)
Lemma read_pdf_snd (f : UploadedFile) :
  snd (read_pdf Document f) = snd (Document f).
Proof. unfold read_pdf. now destruct (Document f). Qed.

Lemma read_pdf_parsed (f : UploadedFile) (d : DocumentObject) :
  fst (Document f) = Returns d ->
  fst (read_pdf Document f) = Returns (join newline (map text (paragraphs d))).
Proof. intros H. now rewrite read_pdf_fst, H. Qed.

Lemma read_pdf_caught (f : UploadedFile) (e : exn) :
  fst (Document f) = Raises e -> isinstance_Exception e = true ->
  fst (read_pdf Document f) = Returns (str e).
Proof. intros H He. rewrite read_pdf_fst, H. simpl. now rewrite He. Qed.

Lemma read_pdf_uncaught (f : UploadedFile) (e : exn) :
  fst (Document f) = Raises e -> isinstance_Exception e = false ->
  fst (read_pdf Document f) = Raises e.
Proof. intros H He. rewrite read_pdf_fst, H. simpl. now rewrite He. Qed.

(** Equal parser outcomes give equal results. *)
Lemma read_pdf_by_outcome (f1 f2 : UploadedFile) :
  fst (Document f1) = fst (Document f2) ->
  fst (read_pdf Document f1) = fst (read_pdf Document f2).
Proof. intros H. now rewrite !read_pdf_fst, H. Qed.

End Exits.

(** * What [read_pdf] returns for a parsed document *)

(** C2: for the document whose paragraphs read "Hello", "" and "World", in
    that order, [read_pdf] returns exactly "Hello", two line feeds, "World":
    the empty paragraph gives an empty line. *)
Theorem read_pdf_hello_world (Document : parser) (f : UploadedFile) (d : DocumentObject) :
  fst (Document f) = Returns d ->
  map text (paragraphs d) = ["Hello"; ""; "World"] ->
  fst (read_pdf Document f) = Returns ("Hello" ++ newline ++ newline ++ "World")%string.
Proof.
  intros Hd Hps. rewrite (read_pdf_parsed Document f d Hd), Hps. reflexivity.
Qed.

Lemma read_pdf_hello_world_witness :
  fst (read_pdf (Stub.whole_buffer Stub.decode)
         (upload "1" "hello.docx" Stub.docx_mime Stub.hello_bytes))
  = Returns ("Hello" ++ newline ++ newline ++ "World")%string.
Proof.
  apply (read_pdf_hello_world (Stub.whole_buffer Stub.decode) _
           (mkDocument [mkParagraph "Hello"; mkParagraph ""; mkParagraph "World"]));
    reflexivity.
Defined.

(** The expected string of C2, byte by byte: 5 letters, 0x0a twice, 5 letters. *)
Example hello_world_bytes :
  list_byte_of_string ("Hello" ++ newline ++ newline ++ "World")
  = [x48; x65; x6c; x6c; x6f; x0a; x0a; x57; x6f; x72; x6c; x64].
Proof. reflexivity. Qed.

(** C4: a parsed document with no paragraph gives the empty string. *)
Theorem read_pdf_no_paragraphs (Document : parser) (f : UploadedFile) (d : DocumentObject) :
  fst (Document f) = Returns d ->
  paragraphs d = [] ->
  fst (read_pdf Document f) = Returns "".
Proof.
  intros Hd Hps. rewrite (read_pdf_parsed Document f d Hd), Hps. reflexivity.
Qed.

Lemma read_pdf_no_paragraphs_witness :
  fst (read_pdf (Stub.whole_buffer Stub.decode)
         (upload "2" "empty.docx" Stub.docx_mime Stub.empty_bytes))
  = Returns "".
Proof.
  apply (read_pdf_no_paragraphs (Stub.whole_buffer Stub.decode) _ (mkDocument []));
    reflexivity.
Defined.

(** For C3, the sentence as worded fails on two documents: one paragraph
    with a line break inside its text gives two segments, and no paragraph
    at all gives the empty string, whose only segment is the empty one. *)
Lemma one_segment_per_paragraph_fails :
  ~ one_segment_per_paragraph (Stub.whole_buffer Stub.decode)
      (upload "3" "break.docx" Stub.docx_mime Stub.soft_break_bytes)
  /\
  ~ one_segment_per_paragraph (Stub.whole_buffer Stub.decode)
      (upload "2" "empty.docx" Stub.docx_mime Stub.empty_bytes).
Proof.
  split; intros H.
  - destruct (H (mkDocument [mkParagraph ("a" ++ newline ++ "b")]) eq_refl)
      as [s [Hs Hseg]].
    vm_compute in Hs. injection Hs as <-. vm_compute in Hseg. discriminate.
  - destruct (H (mkDocument []) eq_refl) as [s [Hs Hseg]].
    vm_compute in Hs. injection Hs as <-. vm_compute in Hseg. discriminate.
Qed.

(** C3, amended: for a parsed document with at least one paragraph and no
    line feed inside any paragraph text, the newline-separated segments of
    the result are exactly the paragraph texts: as many as the paragraphs,
    the i-th segment being the text of the i-th paragraph. *)
Theorem read_pdf_segments (Document : parser) (f : UploadedFile) (d : DocumentObject) :
  fst (Document f) = Returns d ->
  paragraphs d <> [] ->
  forallb (fun s => negb (contains_newline s)) (map text (paragraphs d)) = true ->
  exists s,
    fst (read_pdf Document f) = Returns s /\
    split_newline s = map text (paragraphs d) /\
    List.length (split_newline s) = List.length (paragraphs d) /\
    forall i, nth_error (split_newline s) i = option_map text (nth_error (paragraphs d) i).
Proof.
  intros Hd Hne Hall.
  exists (join newline (map text (paragraphs d))).
  assert (Hsplit : split_newline (join newline (map text (paragraphs d)))
                   = map text (paragraphs d)).
  { apply split_newline_join; [|exact Hall].
    destruct (paragraphs d); [contradiction | discriminate]. }
  split; [now apply read_pdf_parsed|].
  split; [exact Hsplit|].
  rewrite Hsplit. split; [apply length_map|].
  intros i. apply nth_error_map.
Qed.

Lemma read_pdf_segments_witness :
  exists s,
    fst (read_pdf (Stub.whole_buffer Stub.decode)
           (upload "1" "hello.docx" Stub.docx_mime Stub.hello_bytes)) = Returns s /\
    split_newline s = ["Hello"; ""; "World"].
Proof.
  destruct (read_pdf_segments (Stub.whole_buffer Stub.decode)
              (upload "1" "hello.docx" Stub.docx_mime Stub.hello_bytes)
              (mkDocument [mkParagraph "Hello"; mkParagraph ""; mkParagraph "World"])
              eq_refl ltac:(discriminate) eq_refl)
    as [s [Hs [Hseg _]]].
  exists s. split; [exact Hs | exact Hseg].
Defined.

(** No way of cutting a string into segments can count the paragraphs: the
    document without paragraphs and the document with one empty paragraph
    give the same result. *)
Lemma empty_and_one_empty_paragraph_agree (Document : parser)
    (f0 f1 : UploadedFile) (d0 d1 : DocumentObject) :
  fst (Document f0) = Returns d0 -> paragraphs d0 = [] ->
  fst (Document f1) = Returns d1 -> map text (paragraphs d1) = [""] ->
  fst (read_pdf Document f0) = fst (read_pdf Document f1).
Proof.
  intros H0 P0 H1 P1.
  rewrite (read_pdf_parsed _ _ _ H0), (read_pdf_parsed _ _ _ H1), P0, P1.
  reflexivity.
Qed.

(** * python-docx's [Document] under [read_pdf] *)

Lemma string_append_length (a b : string) :
  String.length (a ++ b) = String.length a + String.length b.
Proof. induction a as [|c a IH]; simpl; [reflexivity | now rewrite IH]. Qed.

Lemma string_append_cancel_r (a b s : string) :
  (a ++ s = b ++ s)%string -> a = b.
Proof.
  revert b. induction a as [|c a IH]; intros [|c' b] H; simpl in H.
  - reflexivity.
  - apply (f_equal String.length) in H. simpl in H.
    rewrite string_append_length in H. lia.
  - apply (f_equal String.length) in H. simpl in H.
    rewrite string_append_length in H. lia.
  - injection H as -> H. f_equal. now apply IH.
Qed.

(** The message names one file description only. *)
Lemma not_a_Word_file_inj (a b ct : string) :
  Docx.not_a_Word_file a ct = Docx.not_a_Word_file b ct -> a = b.
Proof.
  unfold Docx.not_a_Word_file. simpl. intros H. injection H as H.
  now apply string_append_cancel_r in H.
Qed.

Lemma not_a_Word_file_not_empty (a ct : string) : Docx.not_a_Word_file a ct <> "".
Proof. discriminate. Qed.

Section DocxExits.

Variable reader : Docx.package_reader.
Variable str_file : UploadedFile -> string.

Lemma Docx_Document_snd (f : UploadedFile) :
  snd (Docx.Document reader str_file f) = snd (reader f).
Proof. unfold Docx.Document. now destruct (reader f). Qed.

(** A failure of the reader is the failure of [Document]. *)
Lemma Docx_Document_reader_failed (f : UploadedFile) (e : exn) :
  fst (reader f) = Raises e ->
  fst (Docx.Document reader str_file f) = Raises e.
Proof.
  unfold Docx.Document. destruct (reader f) as [opened f']. simpl.
  now intros ->.
Qed.

(** What [Document] raises is the reader's failure or its own [ValueError]. *)
Lemma Docx_Document_raised (f : UploadedFile) (e : exn) :
  fst (Docx.Document reader str_file f) = Raises e ->
  fst (reader f) = Raises e \/
  exists part,
    fst (reader f) = Returns part /\
    Docx.content_type part <> Docx.WML_DOCUMENT_MAIN /\
    e = mkExn ValueError
          (Docx.not_a_Word_file (str_file (snd (reader f))) (Docx.content_type part)).
Proof.
  unfold Docx.Document. destruct (reader f) as [[part|e'] f']; simpl.
  - destruct (String.eqb_spec (Docx.content_type part) Docx.WML_DOCUMENT_MAIN)
      as [Hct|Hct]; simpl; [discriminate|].
    intros H. injection H as <-. right. now exists part.
  - intros H. injection H as <-. now left.
Qed.

Hypothesis Hmoves : Docx.only_moves_position reader.
Hypothesis Hstr : Docx.ignores_position str_file.

Lemma str_file_after_reader (f : UploadedFile) :
  str_file (snd (reader f)) = str_file f.
Proof. destruct (Hmoves f) as [pos ->]. apply Hstr. Qed.

Lemma getvalue_after_reader (f : UploadedFile) :
  getvalue (snd (reader f)) = getvalue f.
Proof. now destruct (Hmoves f) as [pos ->]. Qed.

(** A Word package gives its paragraphs. *)
Lemma read_pdf_Word (f : UploadedFile) (part : Docx.DocumentPart) :
  fst (reader f) = Returns part ->
  Docx.content_type part = Docx.WML_DOCUMENT_MAIN ->
  fst (read_pdf (Docx.Document reader str_file) f)
  = Returns (join newline (map text (paragraphs (Docx.document part)))).
Proof.
  intros Hpart Hct. apply read_pdf_parsed.
  unfold Docx.Document. destruct (reader f) as [opened f']. simpl in *.
  rewrite Hpart. simpl. rewrite Hct, String.eqb_refl. reflexivity.
Qed.

(** Another package gives the message that names the file object. *)
Lemma read_pdf_not_Word (f : UploadedFile) (part : Docx.DocumentPart) :
  fst (reader f) = Returns part ->
  Docx.content_type part <> Docx.WML_DOCUMENT_MAIN ->
  fst (read_pdf (Docx.Document reader str_file) f)
  = Returns (Docx.not_a_Word_file (str_file f) (Docx.content_type part)).
Proof.
  intros Hpart Hct.
  rewrite <- (str_file_after_reader f).
  apply (read_pdf_caught _ _
           (mkExn ValueError
              (Docx.not_a_Word_file (str_file (snd (reader f)))
                 (Docx.content_type part)))); [|reflexivity].
  unfold Docx.Document. destruct (reader f) as [opened f']. simpl in *.
  rewrite Hpart. simpl.
  apply String.eqb_neq in Hct. now rewrite Hct.
Qed.

(** Two files on which the reader ends alike, with a Word package or with
    a failure, give the same result. *)
Lemma read_pdf_alike (f1 f2 : UploadedFile) :
  fst (reader f1) = fst (reader f2) ->
  (forall part, fst (reader f1) = Returns part ->
                Docx.content_type part = Docx.WML_DOCUMENT_MAIN) ->
  fst (read_pdf (Docx.Document reader str_file) f1)
  = fst (read_pdf (Docx.Document reader str_file) f2).
Proof.
  intros Hsame HWord.
  destruct (fst (reader f1)) as [part|e] eqn:H1; symmetry in Hsame.
  - rewrite (read_pdf_Word f1 part H1 (HWord part eq_refl)).
    now rewrite (read_pdf_Word f2 part Hsame (HWord part eq_refl)).
  - apply read_pdf_by_outcome.
    now rewrite (Docx_Document_reader_failed _ _ H1),
                (Docx_Document_reader_failed _ _ Hsame).
Qed.

End DocxExits.

(** [Document] adds only an ordinary exception to those of the reader. *)
Lemma Docx_Document_raises_only_Exception
    (reader : Docx.package_reader) (str_file : UploadedFile -> string) :
  Docx.reader_raises_only_Exception reader ->
  raises_only_Exception (Docx.Document reader str_file).
Proof.
  intros Hreader f e He.
  destruct (Docx_Document_raised reader str_file f e He)
    as [Hr | [part [_ [_ ->]]]]; [now apply (Hreader f) | reflexivity].
Qed.

(** The stand-in reader: what it raises, how it reads, what it leaves. *)
Lemma stub_read_part_raised (bs : list byte) (e : exn) :
  Stub.read_part bs = Raises e ->
  isinstance_Exception e = true /\ str e <> "".
Proof.
  unfold Stub.read_part.
  destruct bs as [|b1 [|b2 body]];
    try (intros H; injection H as <-; split; [reflexivity | discriminate]).
  destruct (Byte.eqb b1 x50 && Byte.eqb b2 x4b);
    [|intros H; injection H as <-; split; [reflexivity | discriminate]].
  destruct (Stub.records "" body) as [[|ct ps]|];
    try discriminate;
    intros H; injection H as <-; split; (reflexivity || discriminate).
Qed.

Lemma stub_reader_raises_only_Exception :
  Docx.reader_raises_only_Exception Stub.main_document_part.
Proof. intros f e H. now apply (stub_read_part_raised (getvalue f)). Qed.

Lemma stub_reader_describes_failures :
  Docx.reader_describes_failures Stub.main_document_part.
Proof. intros f e H. now apply (stub_read_part_raised (getvalue f)). Qed.

Lemma stub_reader_addresses_buffer : Docx.addresses_buffer Stub.main_document_part.
Proof. intros f1 f2 Hv. unfold Stub.main_document_part. simpl. now rewrite Hv. Qed.

Lemma stub_reader_only_moves_position :
  Docx.only_moves_position Stub.main_document_part.
Proof. intros f. now exists (List.length (getvalue f)). Qed.

Lemma stub_str_file_ignores_position : Docx.ignores_position Stub.str_file.
Proof. intros pos f. reflexivity. Qed.

(** * What [read_pdf] does when the parse fails *)



(** The other failure of C1: a package that is not a Word document, here a
    spreadsheet uploaded as a document, gives the non-empty message of
    [Document] itself. *)
Lemma read_pdf_spreadsheet :
  fst (read_pdf (Docx.Document Stub.main_document_part Stub.str_file)
         (upload "10" "book.docx" Stub.docx_mime Stub.sheet_bytes))
  = Returns (Docx.not_a_Word_file
               "UploadedFile(file_id='10', name='book.docx', type='application/vnd.openxmlformats-officedocument.wordprocessingml.document')"
               Stub.SML_SHEET_MAIN).
Proof. reflexivity. Qed.



(** C9: the handler covers [Exception] only.  When the parse raises an
    exception that is not an instance of [Exception], [read_pdf] does not
    turn it into a string: the same exception reaches the caller. *)
Theorem read_pdf_propagates_non_Exception (Document : parser) (f : UploadedFile) (e : exn) :
  fst (Document f) = Raises e ->
  isinstance_Exception e = false ->
  fst (read_pdf Document f) = Raises e.
Proof. intros Hraise Hinst. now apply read_pdf_uncaught. Qed.

Lemma read_pdf_propagates_non_Exception_witness :
  isinstance_Exception (mkExn KeyboardInterrupt "") = false /\
  fst (read_pdf Stub.interrupted
         (upload "1" "hello.docx" Stub.docx_mime Stub.hello_bytes))
  = Raises (mkExn KeyboardInterrupt "").
Proof.
  split; [reflexivity|].
  apply (read_pdf_propagates_non_Exception Stub.interrupted); reflexivity.
Defined.

(** [SystemExit], [KeyboardInterrupt] and [GeneratorExit] are outside the
    handler, with whatever message, and so is every class derived from them. *)
Lemma outside_Exception (m : string) (nm : string) :
  isinstance_Exception (mkExn SystemExit m) = false /\
  isinstance_Exception (mkExn KeyboardInterrupt m) = false /\
  isinstance_Exception (mkExn GeneratorExit m) = false /\
  isinstance_Exception (mkExn (Subclass nm KeyboardInterrupt) m) = false.
Proof. repeat split. Qed.

(** C10: when the parse raises an instance of [Exception] whose description
    is empty, [read_pdf] returns the empty string, the very result it gives
    for a parsed document without paragraphs: the two cannot be told apart
    from the returned value. *)
Theorem empty_description_like_empty_document (Document : parser)
    (f_bad f_empty : UploadedFile) (e : exn) (d : DocumentObject) :
  fst (Document f_bad) = Raises e ->
  isinstance_Exception e = true ->
  str e = "" ->
  fst (Document f_empty) = Returns d ->
  paragraphs d = [] ->
  fst (read_pdf Document f_bad) = Returns "" /\
  fst (read_pdf Document f_bad) = fst (read_pdf Document f_empty).
Proof.
  intros Hraise Hinst Hstr Hd Hps.
  rewrite (read_pdf_caught Document f_bad e Hraise Hinst), Hstr.
  rewrite (read_pdf_parsed Document f_empty d Hd), Hps.
  split; reflexivity.
Qed.

Lemma empty_description_like_empty_document_witness :
  fst (read_pdf (Stub.whole_buffer (Stub.decode_within 4))
         (upload "1" "hello.docx" Stub.docx_mime Stub.hello_bytes)) = Returns "" /\
  fst (read_pdf (Stub.whole_buffer (Stub.decode_within 4))
         (upload "1" "hello.docx" Stub.docx_mime Stub.hello_bytes))
  = fst (read_pdf (Stub.whole_buffer (Stub.decode_within 4))
           (upload "2" "empty.docx" Stub.docx_mime Stub.empty_bytes)).
Proof.
  apply (empty_description_like_empty_document
           (Stub.whole_buffer (Stub.decode_within 4)) _ _
           (mkExn MemoryError "") (mkDocument []));
    reflexivity.
Defined.

(** * The same bytes under another file object *)










(** * More on [join], [split] and the loop *)

Lemma string_app_assoc (a b c : string) :
  ((a ++ b) ++ c = a ++ (b ++ c))%string.
Proof. induction a as [|x a IH]; simpl; [reflexivity | now rewrite IH]. Qed.

Lemma ascii_eqb_LF (c : ascii) : Ascii.eqb c LF = true -> c = LF.
Proof. apply Ascii.eqb_eq. Qed.

(** A character put in front of the first line stays in front of the join. *)
Lemma join_push (c : ascii) (seg : string) (segs : list string) :
  join newline (String c seg :: segs) = String c (join newline (seg :: segs)).
Proof. destruct segs; reflexivity. Qed.

(** Joining undoes splitting, for every string. *)
Lemma join_split_newline (s : string) : join newline (split_newline s) = s.
Proof.
  induction s as [|c s IH]; [reflexivity|].
  simpl. destruct (Ascii.eqb c LF) eqn:Hc.
  - apply ascii_eqb_LF in Hc. subst c.
    destruct (split_newline s) as [|y l] eqn:Hs.
    + now destruct (split_newline_not_nil s).
    + rewrite join_cons, IH. reflexivity.
  - destruct (split_newline s) as [|seg segs] eqn:Hs.
    + now destruct (split_newline_not_nil s).
    + now rewrite join_push, IH.
Qed.

(** A line feed cuts: the segments before it, then the segments after it. *)
Lemma split_newline_sep (x s : string) :
  split_newline (x ++ String LF s) = split_newline x ++ split_newline s.
Proof.
  induction x as [|c x IH]; [reflexivity|].
  simpl. rewrite IH. destruct (Ascii.eqb c LF); [reflexivity|].
  destruct (split_newline x) as [|seg segs] eqn:Hx; [|reflexivity].
  now destruct (split_newline_not_nil x).
Qed.

Lemma split_newline_join_lines (l : list string) :
  l <> [] ->
  split_newline (join newline l) = flat_map split_newline l.
Proof.
  induction l as [|x [|y l] IH]; intros Hne.
  - contradiction.
  - simpl. now rewrite app_nil_r.
  - rewrite join_cons.
    change (x ++ newline ++ join newline (y :: l))%string
      with (x ++ String LF (join newline (y :: l)))%string.
    rewrite split_newline_sep, IH by discriminate. reflexivity.
Qed.

Lemma flat_map_split_length (l : list string) :
  List.length l <= List.length (flat_map split_newline l).
Proof.
  induction l as [|x l IH]; simpl; [lia|].
  rewrite length_app.
  destruct (split_newline x) eqn:Hx; [now destruct (split_newline_not_nil x)|].
  simpl. lia.
Qed.

Lemma join_length (l : list string) :
  String.length (join newline l) = text_length l + (List.length l - 1).
Proof.
  induction l as [|x [|y l] IH]; [reflexivity | simpl; lia |].
  rewrite join_cons, !string_append_length, IH. simpl. lia.
Qed.

Lemma join_app (l1 l2 : list string) :
  l1 <> [] -> l2 <> [] ->
  join newline (l1 ++ l2) = (join newline l1 ++ newline ++ join newline l2)%string.
Proof.
  intros H1 H2. induction l1 as [|x [|y l1] IH]; [contradiction | |].
  - destruct l2; [contradiction | reflexivity].
  - change ((x :: y :: l1) ++ l2) with (x :: y :: (l1 ++ l2)).
    rewrite !join_cons.
    change (y :: l1 ++ l2) with ((y :: l1) ++ l2).
    rewrite IH by discriminate.
    now rewrite !string_app_assoc.
Qed.

Lemma join_starts (l : list string) :
  l <> [] -> exists tail, join newline l = (hd "" l ++ tail)%string.
Proof.
  destruct l as [|x [|y l]]; intros Hne; [contradiction | |].
  - exists "". simpl. now rewrite append_empty_r.
  - now exists (newline ++ join newline (y :: l))%string.
Qed.

Lemma join_ends (l : list string) :
  l <> [] -> exists front, join newline l = (front ++ last l "")%string.
Proof.
  induction l as [|x [|y l] IH]; intros Hne; [contradiction | |].
  - now exists "".
  - destruct IH as [front IH]; [discriminate|].
    exists (x ++ newline ++ front)%string.
    rewrite join_cons, IH, !string_app_assoc.
    reflexivity.
Qed.

Lemma whole_buffer_reads_buffer_only (decode : list byte -> outcome DocumentObject) :
  reads_buffer_only (Stub.whole_buffer decode).
Proof. intros f1 f2 Hv. unfold Stub.whole_buffer. simpl. now rewrite Hv. Qed.

Lemma whole_buffer_keeps_buffer (decode : list byte -> outcome DocumentObject) :
  keeps_buffer (Stub.whole_buffer decode).
Proof. intros f. reflexivity. Qed.

Lemma after_calls_buffer (Document : parser) (n : nat) (f : UploadedFile) :
  keeps_buffer Document -> getvalue (after_calls Document n f) = getvalue f.
Proof.
  intros Hkeep. induction n as [|n IH]; [reflexivity|].
  unfold after_calls in *. simpl. now rewrite read_pdf_snd, Hkeep.
Qed.

(** What a raising [read_pdf] says about the parse. *)
Lemma read_pdf_raised (Document : parser) (f : UploadedFile) (e : exn) :
  fst (read_pdf Document f) = Raises e ->
  fst (Document f) = Raises e /\ isinstance_Exception e = false.
Proof.
  rewrite read_pdf_fst. destruct (fst (Document f)) as [d|e']; simpl.
  - discriminate.
  - destruct (isinstance_Exception e') eqn:He'; [discriminate|].
    intros H. injection H as <-. now split.
Qed.

(** * Further properties of [read_pdf] *)

(** X1: the loop puts one entry into [full_text] per paragraph, in document
    order: entry [i] is the text of paragraph [i], and the loop over two
    runs of paragraphs is the two loops one after the other. *)
Theorem collect_text_in_document_order (ps qs : list Paragraph) :
  List.length (collect_text ps) = List.length ps /\
  (forall i, nth_error (collect_text ps) i = option_map text (nth_error ps i)) /\
  collect_text (ps ++ qs) = collect_text ps ++ collect_text qs.
Proof.
  rewrite !collect_text_map. split; [apply length_map|].
  split; [intros i; apply nth_error_map | apply map_app].
Qed.

(** X2: [read_pdf] raises exactly when the parse raises something that is
    not an instance of [Exception]; an instance of [Exception] never leaves
    [read_pdf]. *)
Theorem read_pdf_raises_iff (Document : parser) (f : UploadedFile) (e : exn) :
  fst (read_pdf Document f) = Raises e <->
  fst (Document f) = Raises e /\ isinstance_Exception e = false.
Proof.
  split; [apply read_pdf_raised|].
  intros [Hraise Hinst]. now apply read_pdf_uncaught.
Qed.

(** X3: for a parsed document with at least one paragraph, the
    newline-separated segments of the result are the lines of the first
    paragraph, then the lines of the second, and so on; there are at least
    as many segments as paragraphs. *)
Theorem read_pdf_lines (Document : parser) (f : UploadedFile) (d : DocumentObject) :
  fst (Document f) = Returns d ->
  paragraphs d <> [] ->
  exists s,
    fst (read_pdf Document f) = Returns s /\
    split_newline s = flat_map split_newline (map text (paragraphs d)) /\
    List.length (paragraphs d) <= List.length (split_newline s).
Proof.
  intros Hd Hne. exists (join newline (map text (paragraphs d))).
  split; [now apply read_pdf_parsed|].
  assert (Hsplit : split_newline (join newline (map text (paragraphs d)))
                   = flat_map split_newline (map text (paragraphs d))).
  { apply split_newline_join_lines.
    destruct (paragraphs d); [contradiction | discriminate]. }
  split; [exact Hsplit|].
  rewrite Hsplit, <- (length_map text (paragraphs d)).
  apply flat_map_split_length.
Qed.

Lemma read_pdf_lines_witness :
  exists s,
    fst (read_pdf (Stub.whole_buffer Stub.decode)
           (upload "3" "break.docx" Stub.docx_mime Stub.soft_break_bytes)) = Returns s /\
    split_newline s = ["a"; "b"].
Proof.
  destruct (read_pdf_lines (Stub.whole_buffer Stub.decode)
              (upload "3" "break.docx" Stub.docx_mime Stub.soft_break_bytes)
              (mkDocument [mkParagraph ("a" ++ newline ++ "b")])
              eq_refl ltac:(discriminate))
    as [s [Hs [Hseg _]]].
  exists s. split; [exact Hs | exact Hseg].
Defined.

(** X4: the result identifies the paragraphs when no text holds a line
    feed: two parsed documents, each with at least one paragraph, that give
    the same result have the same paragraph texts in the same order. *)
Theorem read_pdf_result_identifies_paragraphs (Document : parser)
    (f1 f2 : UploadedFile) (d1 d2 : DocumentObject) :
  fst (Document f1) = Returns d1 ->
  fst (Document f2) = Returns d2 ->
  paragraphs d1 <> [] ->
  paragraphs d2 <> [] ->
  forallb (fun s => negb (contains_newline s)) (map text (paragraphs d1)) = true ->
  forallb (fun s => negb (contains_newline s)) (map text (paragraphs d2)) = true ->
  fst (read_pdf Document f1) = fst (read_pdf Document f2) ->
  map text (paragraphs d1) = map text (paragraphs d2).
Proof.
  intros H1 H2 N1 N2 A1 A2 Heq.
  rewrite (read_pdf_parsed _ _ _ H1), (read_pdf_parsed _ _ _ H2) in Heq.
  injection Heq as Heq.
  rewrite <- (split_newline_join (map text (paragraphs d1))), Heq.
  - apply split_newline_join; [|exact A2].
    destruct (paragraphs d2); [contradiction | discriminate].
  - destruct (paragraphs d1); [contradiction | discriminate].
  - exact A1.
Qed.

Lemma read_pdf_result_identifies_paragraphs_witness :
  map text [mkParagraph "Hello"; mkParagraph ""; mkParagraph "World"]
  = map text [mkParagraph "Hello"; mkParagraph ""; mkParagraph "World"].
Proof.
  apply (read_pdf_result_identifies_paragraphs (Stub.whole_buffer Stub.decode)
           (upload "1" "hello.docx" Stub.docx_mime Stub.hello_bytes)
           (upload "5" "copy of hello.docx" Stub.docx_mime Stub.hello_bytes)
           (mkDocument [mkParagraph "Hello"; mkParagraph ""; mkParagraph "World"])
           (mkDocument [mkParagraph "Hello"; mkParagraph ""; mkParagraph "World"]));
    solve [reflexivity | discriminate].
Defined.

(** X5: the shape of the result for a parsed document with at least one
    paragraph: it starts with the text of the first paragraph, ends with the
    text of the last, and its length is the length of all the texts plus
    one separator between neighbours, N - 1 for N paragraphs. *)
Theorem read_pdf_result_shape (Document : parser) (f : UploadedFile) (d : DocumentObject) :
  fst (Document f) = Returns d ->
  paragraphs d <> [] ->
  exists s,
    fst (read_pdf Document f) = Returns s /\
    (exists tail, s = (hd "" (map text (paragraphs d)) ++ tail)%string) /\
    (exists front, s = (front ++ last (map text (paragraphs d)) "")%string) /\
    String.length s
    = text_length (map text (paragraphs d)) + (List.length (paragraphs d) - 1).
Proof.
  intros Hd Hne. exists (join newline (map text (paragraphs d))).
  assert (Hne' : map text (paragraphs d) <> [])
    by (destruct (paragraphs d); [contradiction | discriminate]).
  split; [now apply read_pdf_parsed|].
  split; [now apply join_starts|]. split; [now apply join_ends|].
  now rewrite join_length, length_map.
Qed.

Lemma read_pdf_result_shape_witness :
  exists s,
    fst (read_pdf (Stub.whole_buffer Stub.decode)
           (upload "1" "hello.docx" Stub.docx_mime Stub.hello_bytes)) = Returns s /\
    (exists tail, s = ("Hello" ++ tail)%string) /\
    (exists front, s = (front ++ "World")%string) /\
    String.length s = 12.
Proof.
  apply (read_pdf_result_shape (Stub.whole_buffer Stub.decode)
           (upload "1" "hello.docx" Stub.docx_mime Stub.hello_bytes)
           (mkDocument [mkParagraph "Hello"; mkParagraph ""; mkParagraph "World"]));
    [reflexivity | discriminate].
Defined.

(** X6: a document whose paragraphs are those of a first document followed
    by those of a second, both with at least one paragraph, gives the first
    result, a line feed, and the second result. *)
Theorem read_pdf_of_concatenation (Document : parser)
    (f f1 f2 : UploadedFile) (d d1 d2 : DocumentObject) :
  fst (Document f) = Returns d ->
  fst (Document f1) = Returns d1 ->
  fst (Document f2) = Returns d2 ->
  paragraphs d = paragraphs d1 ++ paragraphs d2 ->
  paragraphs d1 <> [] ->
  paragraphs d2 <> [] ->
  exists s1 s2,
    fst (read_pdf Document f1) = Returns s1 /\
    fst (read_pdf Document f2) = Returns s2 /\
    fst (read_pdf Document f) = Returns (s1 ++ newline ++ s2)%string.
Proof.
  intros H H1 H2 Hps N1 N2.
  exists (join newline (map text (paragraphs d1))),
         (join newline (map text (paragraphs d2))).
  split; [now apply read_pdf_parsed|]. split; [now apply read_pdf_parsed|].
  rewrite (read_pdf_parsed _ _ _ H), Hps, map_app. f_equal.
  apply join_app.
  - destruct (paragraphs d1); [contradiction | discriminate].
  - destruct (paragraphs d2); [contradiction | discriminate].
Qed.

Lemma read_pdf_of_concatenation_witness :
  exists s1 s2,
    fst (read_pdf (Stub.whole_buffer Stub.decode)
           (upload "7" "first.docx" Stub.docx_mime
              (Stub.PK ++ Stub.record "Hello"))) = Returns s1 /\
    fst (read_pdf (Stub.whole_buffer Stub.decode)
           (upload "8" "second.docx" Stub.docx_mime
              (Stub.PK ++ Stub.record "" ++ Stub.record "World"))) = Returns s2 /\
    fst (read_pdf (Stub.whole_buffer Stub.decode)
           (upload "1" "hello.docx" Stub.docx_mime Stub.hello_bytes))
    = Returns (s1 ++ newline ++ s2)%string.
Proof.
  apply (read_pdf_of_concatenation (Stub.whole_buffer Stub.decode) _ _ _
           (mkDocument [mkParagraph "Hello"; mkParagraph ""; mkParagraph "World"])
           (mkDocument [mkParagraph "Hello"])
           (mkDocument [mkParagraph ""; mkParagraph "World"]));
    solve [reflexivity | discriminate].
Defined.

(** X7: every caught failure reads like a document: when the parse raises
    an instance of [Exception], [read_pdf] returns the very string it
    returns for the document whose paragraphs are the lines of [str(e)]. *)
Theorem caught_failure_reads_like_a_document (Document : parser)
    (f_bad f_doc : UploadedFile) (e : exn) (d : DocumentObject) :
  fst (Document f_bad) = Raises e ->
  isinstance_Exception e = true ->
  fst (Document f_doc) = Returns d ->
  map text (paragraphs d) = split_newline (str e) ->
  fst (read_pdf Document f_bad) = fst (read_pdf Document f_doc).
Proof.
  intros Hraise Hinst Hd Hps.
  rewrite (read_pdf_caught _ _ _ Hraise Hinst), (read_pdf_parsed _ _ _ Hd), Hps.
  now rewrite join_split_newline.
Qed.

Lemma caught_failure_reads_like_a_document_witness :
  fst (read_pdf (Stub.whole_buffer Stub.decode)
         (upload "4" "notes.docx" Stub.docx_mime Stub.plain_text_bytes))
  = fst (read_pdf (Stub.whole_buffer Stub.decode)
           (upload "9" "message.docx" Stub.docx_mime
              (Stub.PK ++ Stub.record "File is not a zip file"))).
Proof.
  apply (caught_failure_reads_like_a_document (Stub.whole_buffer Stub.decode) _ _
           (mkExn BadZipFile "File is not a zip file")
           (mkDocument [mkParagraph "File is not a zip file"]));
    reflexivity.
Defined.



(** * The script around [read_pdf] *)

(** X9: what the page shows.  When the script ends normally it has shown
    nothing, with no file uploaded, or exactly two things, with a file: the
    console line and the text area, both holding the string [read_pdf]
    returned. *)
Theorem script_shows_result_twice (Document : parser)
    (uploaded_file : option UploadedFile) (shown : list ui_event) :
  script Document uploaded_file = Returns shown ->
  (uploaded_file = None /\ shown = []) \/
  (exists file pdf_text,
     uploaded_file = Some file /\
     fst (read_pdf Document file) = Returns pdf_text /\
     shown = [Printed pdf_text; TextArea pdf_text]).
Proof.
  destruct uploaded_file as [file|]; simpl.
  - destruct (fst (read_pdf Document file)) as [pdf_text|e] eqn:Hread; simpl.
    + intros H. injection H as <-. right. now exists file, pdf_text.
    + discriminate.
  - intros H. injection H as <-. now left.
Qed.

Lemma script_shows_result_twice_witness :
  exists pdf_text,
    fst (read_pdf (Stub.whole_buffer Stub.decode)
           (upload "1" "hello.docx" Stub.docx_mime Stub.hello_bytes)) = Returns pdf_text /\
    [Printed ("Hello" ++ newline ++ newline ++ "World")%string;
     TextArea ("Hello" ++ newline ++ newline ++ "World")%string]
    = [Printed pdf_text; TextArea pdf_text].
Proof.
  destruct (script_shows_result_twice (Stub.whole_buffer Stub.decode)
              (Some (upload "1" "hello.docx" Stub.docx_mime Stub.hello_bytes))
              [Printed ("Hello" ++ newline ++ newline ++ "World")%string;
               TextArea ("Hello" ++ newline ++ newline ++ "World")%string]
              eq_refl)
    as [[Hnone _] | [file [pdf_text [Hfile [Hread Hshown]]]]].
  - discriminate Hnone.
  - injection Hfile as <-. exists pdf_text. split; [exact Hread | exact Hshown].
Defined.



(** X11: with [print] and [st.text_area] taken as calls that do not fail,
    the script stops with an exception exactly when a file is uploaded and
    its parse raises something that is not an instance of [Exception]; with
    no upload it does not raise. *)
Theorem script_raises_iff (Document : parser)
    (uploaded_file : option UploadedFile) (e : exn) :
  script Document uploaded_file = Raises e <->
  exists file, uploaded_file = Some file /\
               fst (Document file) = Raises e /\ isinstance_Exception e = false.
Proof.
  split.
  - destruct uploaded_file as [file|]; simpl; [|discriminate].
    destruct (fst (read_pdf Document file)) as [pdf_text|e'] eqn:Hread; simpl.
    + discriminate.
    + intros H. injection H as <-. exists file. split; [reflexivity|].
      now apply read_pdf_raised.
  - intros [file [-> [Hraise Hinst]]]. unfold script.
    now rewrite (read_pdf_uncaught _ _ _ Hraise Hinst).
Qed.
